(** * Vision-Y YOLOv8 detection service (src/components/ml/YOLOv8Service.py)

    A shallow embedding of the FastAPI service: the class map, the
    bounding-box normaliser, the detection filter, the image decoder, the
    /health, /detect and /batch-validate handlers.

    Modelling choices:
    - Python floats are modelled as rationals [Q]; the models' coordinates
      and confidences are finite floats, every finite float is a rational.
      The request's thresholds and the configured default are finite floats
      too (the NaN and infinity values that Python's json module lets
      through are not modelled).
    - The confidences are [np.float32] values ([.cpu().numpy()] of a float32
      tensor); [conf < threshold] compares one with a Python float, which
      NumPy >= 2 casts to float32 (NEP 50).  [round32] below is that cast:
      round to nearest, ties to even, with subnormals and overflow.
    - Python exceptions are the [exc] type below, and a computation that may
      raise returns an [outcome].
    - [Dict[str, float]] is a [gmap string Q]; [List[str]] is a list.
    - Third-party code (base64 decoding, PIL image opening, the YOLO network
      itself, the clock) enters as Section variables. *)

From stdpp Require Import base gmap strings list fin_maps pretty.
From Stdlib Require Import QArith Qminmax Lqa Ascii Qround Qpower.



(* ------------------------------------------------------------------ *)
(** ** Exceptions and the outcome monad *)

(** The exceptions the service raises: FastAPI's [HTTPException] with a
    status code and a detail, and any other Python exception with its
    message (binascii.Error, IndexError, PIL errors, CUDA errors, ...). *)
Inductive exc :=
| HTTPException (status_code : Z) (detail : string)
| PyException (msg : string).

(** [str(e)]: Starlette's [HTTPException.__str__] is
    [f"{self.status_code}: {self.detail}"]. *)
Definition exc_str (e : exc) : string :=
  match e with
  | HTTPException code detail => String.append (pretty code) (String.append ": " detail)
  | PyException msg => msg
  end.

Inductive outcome (A : Type) :=
| Ok (a : A)
| Raise (e : exc).
Arguments Ok {A} a.
Arguments Raise {A} e.

Definition obind {A B} (m : outcome A) (f : A -> outcome B) : outcome B :=
  match m with
  | Ok a => f a
  | Raise e => Raise e
  end.

Notation "x <- m ;; k" := (obind m (fun x => k))
  (at level 100, m at next level, right associativity).

(** [try: body except Exception as e: handler(e)].  Every exception of the
    service ([HTTPException] included) is a subclass of [Exception]. *)
Definition try_except {A} (body : outcome A) (handler : exc -> outcome A) : outcome A :=
  match body with
  | Ok a => Ok a
  | Raise e => handler e
  end.

(* ------------------------------------------------------------------ *)
(** ** Data model (the pydantic models) *)

Record BoundingBox := mkBoundingBox {
  bb_x : Q; bb_y : Q; bb_width : Q; bb_height : Q
}.

Record Detection := mkDetection {
  class_name : string;
  confidence : Q;
  bbox : BoundingBox
}.

Record DetectionRequest := mkDetectionRequest {
  image_data : option string;
  image_url : option string;
  classes : list string;
  thresholds : gmap string Q;
  nms_iou : Q
}.

(** [DetectionRequest(image_data=...)] with the pydantic defaults. *)
Definition default_request (data : string) : DetectionRequest :=
  {| image_data := Some data; image_url := None; classes := [];
     thresholds := ∅; nms_iou := 45 # 100 |}.

(** A pixel-space corner box [x1, y1, x2, y2] ([result.boxes.xyxy] row). *)
Record xyxy := mkXyxy { x1 : Q; y1 : Q; x2 : Q; y2 : Q }.

(** [result.boxes] of one ultralytics result: the three parallel arrays
    [xyxy], [conf] and [cls] (class ids after [.astype(int)]). *)
Record Boxes := mkBoxes {
  boxes_xyxy : list xyxy;
  boxes_conf : list Q;
  boxes_cls : list Z
}.

(** One ultralytics result; [boxes] may be [None]. *)
Record YoloResult := mkYoloResult { result_boxes : option Boxes }.

(* ------------------------------------------------------------------ *)
(** ** The class map [YOLO_TO_VY_CLASSES] *)

Definition YOLO_TO_VY_CLASSES : gmap Z string :=
  list_to_map
    [(0%Z, "person"); (1%Z, "bicycle"); (2%Z, "car"); (3%Z, "motorcycle");
     (5%Z, "truck"); (7%Z, "truck");
     (14%Z, "animal"); (15%Z, "animal"); (16%Z, "animal"); (17%Z, "animal")].

(* ------------------------------------------------------------------ *)
(** ** Python helpers *)

(** Truthiness of a [str]: [None] and [""] are false. *)
Definition str_truthy (s : option string) : bool :=
  match s with
  | Some s => negb (String.eqb s "")
  | None => false
  end.

(** [zip(a, b, c)]: stops at the shortest argument. *)
Fixpoint zip3 {A B C} (a : list A) (b : list B) (c : list C) : list (A * B * C) :=
  match a, b, c with
  | x :: a', y :: b', z :: c' => (x, y, z) :: zip3 a' b' c'
  | _, _, _ => []
  end.

(** [x in xs] on a list of strings. *)
Definition str_in (x : string) (xs : list string) : bool :=
  existsb (String.eqb x) xs.

(** [min(xs)]: keeps the first element and replaces it by each later one
    that is strictly smaller; [None] stands for the [ValueError] on an
    empty sequence (not reachable from the service). *)
Definition py_min (xs : list Q) : option Q :=
  match xs with
  | [] => None
  | x :: xs' => Some (fold_left (fun acc y => if Qlt_le_dec y acc then y else acc) xs' x)
  end.

(* ------------------------------------------------------------------ *)
(** ** float32 values and NumPy's [np.float32 < float] *)

(** A float32 value that is not NaN: finite, or an infinity ([neg] for
    minus infinity).  The signed zeros compare equal and are both [F32 0]. *)
Inductive f32 :=
| F32 (q : Q)
| F32inf (neg : bool).

Definition pow2 (k : Z) : Q := Qpower (2#1) k.

(** Rounding of a rational to an integer, ties to even. *)
Definition rne (x : Q) : Z :=
  let f := Qfloor x in
  match Qcompare (x - inject_Z f) (1#2) with
  | Lt => f
  | Gt => (f + 1)%Z
  | Eq => if Z.even f then f else (f + 1)%Z
  end.

(** The exponent of the last place of a positive [x < 2^128] in float32:
    the least [u >= -149] with [x < 2^(u+24)], i.e. [e - 23] for [x] in
    the binade [[2^e, 2^(e+1))], and [-149] for the subnormals. *)
Fixpoint exp_search (fuel : nat) (u : Z) (x : Q) : Z :=
  match fuel with
  | O => u
  | S fuel' => if Qlt_le_dec x (pow2 (u + 24)) then u else exp_search fuel' (u + 1) x
  end.

Definition f32_exp (x : Q) : Z := exp_search 253 (-149) x.

(** [x] rounded to a multiple of [2^u], ties to even. *)
Definition f32_round_at (u : Z) (x : Q) : Q := inject_Z (rne (x / pow2 u)) * pow2 u.

(** Round-to-nearest-even of a positive rational to float32; a result of
    [2^128] or more overflows to infinity. *)
Definition round32_pos (x : Q) : f32 :=
  if Qlt_le_dec x (pow2 128) then
    let v := f32_round_at (f32_exp x) x in
    if Qlt_le_dec v (pow2 128) then F32 v else F32inf false
  else F32inf false.

Definition f32_neg (a : f32) : f32 :=
  match a with F32 q => F32 (- q) | F32inf b => F32inf (negb b) end.

(** The conversion of a Python float (a double, here its exact value) to
    [np.float32]; on a float32 value it is the identity. *)
Definition round32 (x : Q) : f32 :=
  match Qnum x with
  | Z0 => F32 0
  | Zpos _ => round32_pos x
  | Zneg _ => f32_neg (round32_pos (- x))
  end.

(** [a <= b] on float32 values. *)
Definition f32_leb (a b : f32) : bool :=
  match a, b with
  | F32inf true, _ => true
  | _, F32inf false => true
  | F32inf false, _ => false
  | _, F32inf true => false
  | F32 p, F32 q => Qle_bool p q
  end.

(** [a < b] on float32 values without NaN. *)
Definition f32_ltb (a b : f32) : bool := negb (f32_leb b a).

(** [x < y] for an [np.float32] [x] and a Python float [y] under NumPy >= 2:
    both operands are taken to float32 and compared there. *)
Definition np_f32_lt (x y : Q) : bool := f32_ltb (round32 x) (round32 y).

(* ------------------------------------------------------------------ *)
(** ** [normalize_bbox] and [filter_detections] *)

Section Filter.

(** [CONFIDENCE_THRESHOLD = float(os.getenv("VY_CONFIDENCE_THRESHOLD", "0.5"))] *)
Variable CONFIDENCE_THRESHOLD : Q.

(** The image width and height come from [img_array.shape], integers. *)
Definition normalize_bbox (box : xyxy) (img_width img_height : Z) : BoundingBox :=
  {| bb_x := x1 box / inject_Z img_width;
     bb_y := y1 box / inject_Z img_height;
     bb_width := (x2 box - x1 box) / inject_Z img_width;
     bb_height := (y2 box - y1 box) / inject_Z img_height |}.

(** The body of the inner loop: [None] is [continue], [Some d] appends [d]. *)
Definition filter_one (classes : list string) (thresholds : gmap string Q)
    (img_width img_height : Z) (raw : xyxy * Q * Z) : option Detection :=
  let '(box, conf, class_id) := raw in
  match YOLO_TO_VY_CLASSES !! class_id with
  | None => None
  | Some vy_class =>
      if String.eqb vy_class "" then None            (* if not vy_class *)
      else if negb (bool_decide (classes = [])) && negb (str_in vy_class classes)
      then None
      else
        let threshold := default CONFIDENCE_THRESHOLD (thresholds !! vy_class) in
        if np_f32_lt conf threshold then None             (* conf < threshold *)
        else Some {| class_name := vy_class; confidence := conf;
                     bbox := normalize_bbox box img_width img_height |}
  end.

(** [filter_detections]: the two nested loops appending to [detections]. *)
Definition filter_detections (results : list YoloResult) (classes : list string)
    (thresholds : gmap string Q) (img_width img_height : Z) : list Detection :=
  fold_left
    (fun detections result =>
       match result_boxes result with
       | None => detections                                   (* continue *)
       | Some b =>
           fold_left
             (fun detections raw =>
                match filter_one classes thresholds img_width img_height raw with
                | None => detections
                | Some d => detections ++ [d]
                end)
             (zip3 (boxes_xyxy b) (boxes_conf b) (boxes_cls b)) detections
       end)
    results [].

End Filter.

(* ------------------------------------------------------------------ *)
(** ** [decode_image] *)

(** [s.split(",")]: the pieces between commas; always at least one. *)
Fixpoint split_comma (s : string) : list string :=
  match s with
  | EmptyString => [""]
  | String a s' =>
      let rest := split_comma s' in
      if Ascii.eqb a ","%char then "" :: rest
      else match rest with
           | h :: t => String a h :: t
           | [] => [String a ""]
           end
  end.

(** [xs[1]] on the result of [split]: [IndexError] when there is no comma. *)
Definition index1 (xs : list string) : outcome string :=
  match xs !! 1%nat with
  | Some p => Ok p
  | None => Raise (PyException "list index out of range")
  end.

Section Decode.

(** The bytes produced by [base64.b64decode] and the arrays produced by
    [np.array(image)]. *)
Variables bytes image : Type.
(** [base64.b64decode] (raising [binascii.Error] on bad padding or
    characters). *)
Variable b64decode : string -> outcome bytes.
(** [Image.open(io.BytesIO(b))], the [convert("RGB")] when the mode is not
    RGB, and [np.array(image)]; raising on unreadable bytes. *)
Variable image_to_array : bytes -> outcome image.

Definition decode_image (image_data : string) : outcome image :=
  try_except
    (data <- (if String.prefix "data:image" image_data
              then index1 (split_comma image_data)
              else Ok image_data) ;;
     image_bytes <- b64decode data ;;
     image_to_array image_bytes)
    (fun e => Raise (HTTPException 400 (String.append "Invalid image data: " (exc_str e)))).

End Decode.

(* ------------------------------------------------------------------ *)
(** ** The handlers: /health, /detect, /batch-validate *)

Record ModelInfo := mkModelInfo {
  model_name : string; info_device : string; num_classes : nat
}.

Record DetectionResponse (image : Type) := mkDetectionResponse {
  detections : list Detection;
  processing_time_ms : Q;
  image_size : Z * Z;
  model_info : ModelInfo
}.
Arguments detections {image}.
Arguments processing_time_ms {image}.
Arguments image_size {image}.
Arguments model_info {image}.

(** One invocation [model(img_array, conf=..., iou=..., verbose=False)],
    recorded so that the arguments the handler passes are observable. *)
Record ModelCall (image : Type) := mkModelCall {
  call_image : image; call_conf : Q; call_iou : Q
}.
Arguments call_image {image}.
Arguments call_conf {image}.
Arguments call_iou {image}.

Record HealthResponse (datetime : Type) := mkHealthResponse {
  status : string; model_loaded : bool; device : string; timestamp : datetime
}.
Arguments status {datetime}.
Arguments model_loaded {datetime}.
Arguments device {datetime}.
Arguments timestamp {datetime}.

(** A [/batch-validate] record: [{"filename", "detections",
    "processing_time_ms", "success": True}] or
    [{"filename", "error", "success": False}]. *)
Inductive BatchEntry :=
| BatchOk (filename : string) (n_detections : nat) (time_ms : Q)
| BatchError (filename : string) (error : string).

Definition entry_success (e : BatchEntry) : bool :=
  match e with BatchOk _ _ _ => true | BatchError _ _ => false end.

Definition entry_filename (e : BatchEntry) : string :=
  match e with BatchOk f _ _ => f | BatchError f _ => f end.

(** The confidence floor of the model call:
    [min(request.thresholds.values()) if request.thresholds else CONFIDENCE_THRESHOLD].
    [py_min] is never [None] on a non-empty map, the [default] is a filler. *)
Definition inference_conf (CONFIDENCE_THRESHOLD : Q) (thresholds : gmap string Q) : Q :=
  if bool_decide (thresholds = ∅) then CONFIDENCE_THRESHOLD
  else default CONFIDENCE_THRESHOLD (py_min (map snd (map_to_list thresholds))).

Section Service.

Variable CONFIDENCE_THRESHOLD : Q.
(** ["cuda" if torch.cuda.is_available() else "cpu"] *)
Variable DEVICE : string.
Variables bytes image : Type.
Variable b64decode : string -> outcome bytes.
Variable image_to_array : bytes -> outcome image.
(** [img_array.shape[:2]]: (height, width). *)
Variable image_shape : image -> Z * Z.
(** The loaded network and its invocation. *)
Variable yolo : Type.
Variable run_model : yolo -> image -> Q -> Q -> outcome (list YoloResult).
(** [(loop.time() - start_time) * 1000] and [datetime.now()]. *)
Variable elapsed_ms : Q.
Variable datetime : Type.
Variable now : datetime.
(** [base64.b64encode(content).decode()] and [await file.read()]. *)
Variable b64encode : bytes -> string.
Variable UploadFile : Type.
Variable filename_of : UploadFile -> string.
Variable read_file : UploadFile -> outcome bytes.

(** [health_check]; [model] is the global [Optional[YOLO]]. *)
Definition health_check (model : option yolo) : HealthResponse datetime :=
  {| status := if bool_decide (is_Some model) then "healthy" else "unhealthy";
     model_loaded := bool_decide (is_Some model);
     device := DEVICE;
     timestamp := now |}.

(** The [try] block of [detect_objects]: the model calls it makes and its
    outcome before the [except] clause. *)
Definition detect_body (m : yolo) (request : DetectionRequest)
    : list (ModelCall image) * outcome (DetectionResponse image) :=
  let img :=
    if str_truthy (image_data request)
    then decode_image bytes image b64decode image_to_array (default "" (image_data request))
    else if str_truthy (image_url request)
    then Raise (HTTPException 400 "Image URL not supported yet")
    else Raise (HTTPException 400 "Either image_data or image_url required") in
  match img with
  | Raise e => ([], Raise e)
  | Ok img_array =>
      let '(img_height, img_width) := image_shape img_array in
      let conf := inference_conf CONFIDENCE_THRESHOLD (thresholds request) in
      ([{| call_image := img_array; call_conf := conf; call_iou := nms_iou request |}],
       results <- run_model m img_array conf (nms_iou request) ;;
       Ok {| detections := filter_detections CONFIDENCE_THRESHOLD results
                             (classes request) (thresholds request) img_width img_height;
             processing_time_ms := elapsed_ms;
             image_size := (img_width, img_height);
             model_info := {| model_name := "YOLOv8"; info_device := DEVICE;
                              num_classes := size YOLO_TO_VY_CLASSES |} |})
  end.

(** [detect_objects]: the model calls made and the outcome. *)
Definition detect_objects (model : option yolo) (request : DetectionRequest)
    : list (ModelCall image) * outcome (DetectionResponse image) :=
  match model with
  | None => ([], Raise (HTTPException 503 "Model not loaded"))
  | Some m =>
      let '(calls, r) := detect_body m request in
      (calls,
       try_except r (fun e =>
         Raise (HTTPException 500 (String.append "Detection failed: " (exc_str e)))))
  end.

(** The [try] block of the loop body of [batch_validate]: read the file,
    base64-encode it and call [detect_objects] on a default request. *)
Definition process_file (model : option yolo) (file : UploadFile)
    : outcome (DetectionResponse image) :=
  content <- read_file file ;;
  snd (detect_objects model (default_request (b64encode content))).

(** The body of the [for file in files] loop of [batch_validate]. *)
Definition batch_item (model : option yolo) (file : UploadFile) : BatchEntry :=
  match process_file model file with
  | Ok result => BatchOk (filename_of file) (length (detections result))
                         (processing_time_ms result)
  | Raise e => BatchError (filename_of file) (exc_str e)
  end.

Definition batch_validate (model : option yolo) (files : list UploadFile) : list BatchEntry :=
  fold_left (fun results file => results ++ [batch_item model file]) files [].

End Service.

(* ------------------------------------------------------------------ *)
(** ** [load_model] (run by [startup_event]) *)

Section Load.

Variable yolo : Type.
(** [YOLO(YOLO_WEIGHTS)]: reads the weights file, may raise. *)
Variable yolo_open : string -> outcome yolo.
(** [model.to(DEVICE)]: moves the network in place, may raise. *)
Variable to_device : yolo -> string -> outcome unit.

(** [load_model]: assigns the global [model] as soon as [YOLO(...)]
    returns, then moves it to the device; any exception is logged and
    re-raised ([except Exception: ...; raise]).  The result is the new
    value of the global [model] and the outcome of the call. *)
Definition load_model (YOLO_WEIGHTS DEVICE : string) (model : option yolo)
    : option yolo * outcome unit :=
  match yolo_open YOLO_WEIGHTS with
  | Raise e => (model, Raise e)
  | Ok m =>
      (Some m, match to_device m DEVICE with
               | Ok _ => Ok tt
               | Raise e => Raise e
               end)
  end.

End Load.

(* ================================================================== *)
(** * Specification-side definitions *)

(** The raw detections in the invoker's order: the rows of every result
    that has boxes, [zip]ped. *)
Definition raw_detections (results : list YoloResult) : list (xyxy * Q * Z) :=
  flat_map (fun r => match result_boxes r with
                     | None => []
                     | Some b => zip3 (boxes_xyxy b) (boxes_conf b) (boxes_cls b)
                     end) results.

(** Steps 1-4 of the remap-and-filter contract, read from the spec: keep a
    raw detection when its id is in the class map, its class name is in a
    non-empty allowlist (if one is given) and its confidence is not below
    the per-class override or the default. *)
Definition filter_detections_spec (CONFIDENCE_THRESHOLD : Q) (results : list YoloResult)
    (classes : list string) (thresholds : gmap string Q) (img_width img_height : Z)
    : list Detection :=
  omap (fun '(box, conf, class_id) =>
          match YOLO_TO_VY_CLASSES !! class_id with
          | None => None
          | Some c =>
              if bool_decide (classes = [] \/ c ∈ classes)
                 && Qle_bool (default CONFIDENCE_THRESHOLD (thresholds !! c)) conf
              then Some {| class_name := c; confidence := conf;
                           bbox := normalize_bbox box img_width img_height |}
              else None
          end)
       (raw_detections results).

(** The same contract with the threshold test as the code performs it:
    the confidence is kept when, in float32, it is not below the threshold
    cast to float32. *)
Definition filter_detections_spec_f32 (CONFIDENCE_THRESHOLD : Q) (results : list YoloResult)
    (classes : list string) (thresholds : gmap string Q) (img_width img_height : Z)
    : list Detection :=
  omap (fun '(box, conf, class_id) =>
          match YOLO_TO_VY_CLASSES !! class_id with
          | None => None
          | Some c =>
              if bool_decide (classes = [] \/ c ∈ classes)
                 && f32_leb (round32 (default CONFIDENCE_THRESHOLD (thresholds !! c)))
                            (round32 conf)
              then Some {| class_name := c; confidence := conf;
                           bbox := normalize_bbox box img_width img_height |}
              else None
          end)
       (raw_detections results).

(** The Python float [0.7] (the double nearest 7/10), [0.5], and the
    float32 values nearest 0.7 and 0.6, as a float32 model output carries
    them. *)
Definition py_0_7 : Q := 3152519739159347 # 4503599627370496.
Definition py_0_5 : Q := 1 # 2.
Definition f32_0_7 : Q := 11744051 # 16777216.
Definition f32_0_6 : Q := 5033165 # 8388608.

(** A result holding one raw detection. *)
Definition single_result (box : xyxy) (conf : Q) (class_id : Z) : YoloResult :=
  {| result_boxes := Some {| boxes_xyxy := [box]; boxes_conf := [conf];
                             boxes_cls := [class_id] |} |}.

(* ================================================================== *)
(** * Lemmas *)

Lemma class_map_nonempty (k : Z) (c : string) :
  YOLO_TO_VY_CLASSES !! k = Some c -> c <> "".
Proof.
  intros Hk.
  assert (Hall : map_Forall (fun _ c => c <> "") YOLO_TO_VY_CLASSES)
    by (apply (bool_decide_unpack _); vm_compute; reflexivity).
  exact (Hall k c Hk).
Qed.

Lemma str_in_spec (x : string) (xs : list string) :
  str_in x xs = true <-> x ∈ xs.
Proof.
  unfold str_in. rewrite existsb_exists, list_elem_of_In. split.
  - intros [y [Hy Heq]]. apply String.eqb_eq in Heq. subst. exact Hy.
  - intros Hx. exists x. split; [exact Hx | apply String.eqb_refl].
Qed.

Lemma fold_append_omap {A B} (f : A -> option B) (xs : list A) (acc : list B) :
  fold_left (fun acc x => match f x with None => acc | Some d => acc ++ [d] end) xs acc
  = acc ++ omap f xs.
Proof.
  revert acc. induction xs as [|x xs IH]; intros acc; simpl.
  - by rewrite app_nil_r.
  - destruct (f x) as [d|]; rewrite IH; [by rewrite <-app_assoc | reflexivity].
Qed.

Lemma filter_detections_omap CT results classes thresholds w h :
  filter_detections CT results classes thresholds w h
  = omap (filter_one CT classes thresholds w h) (raw_detections results).
Proof.
  unfold filter_detections, raw_detections.
  assert (Hgen : forall acc,
    fold_left
      (fun detections result =>
         match result_boxes result with
         | None => detections
         | Some b =>
             fold_left
               (fun detections raw =>
                  match filter_one CT classes thresholds w h raw with
                  | None => detections
                  | Some d => detections ++ [d]
                  end)
               (zip3 (boxes_xyxy b) (boxes_conf b) (boxes_cls b)) detections
         end) results acc
    = acc ++ omap (filter_one CT classes thresholds w h)
                  (flat_map (fun r => match result_boxes r with
                                      | None => []
                                      | Some b => zip3 (boxes_xyxy b) (boxes_conf b) (boxes_cls b)
                                      end) results)).
  { induction results as [|r results IH]; intros acc; simpl.
    - by rewrite app_nil_r.
    - destruct (result_boxes r) as [b|]; simpl.
      + rewrite (fold_append_omap (filter_one CT classes thresholds w h)), IH, omap_app.
        by rewrite app_assoc.
      + apply IH. }
  apply (Hgen []).
Qed.

Lemma filter_one_spec CT classes thresholds w h box conf class_id :
  filter_one CT classes thresholds w h (box, conf, class_id)
  = match YOLO_TO_VY_CLASSES !! class_id with
    | None => None
    | Some c =>
        if bool_decide (classes = [] \/ c ∈ classes)
           && f32_leb (round32 (default CT (thresholds !! c))) (round32 conf)
        then Some {| class_name := c; confidence := conf;
                     bbox := normalize_bbox box w h |}
        else None
    end.
Proof.
  unfold filter_one.
  destruct (YOLO_TO_VY_CLASSES !! class_id) as [c|] eqn:Hc; [|reflexivity].
  pose proof (class_map_nonempty _ _ Hc) as Hne.
  destruct (String.eqb_spec c "") as [E|_]; [contradiction|].
  destruct (bool_decide_reflect (classes = [])) as [Hnil|Hnil].
  - rewrite bool_decide_true by (left; exact Hnil). simpl.
    unfold np_f32_lt, f32_ltb. by destruct (f32_leb _ _).
  - simpl. destruct (str_in c classes) eqn:Hin; simpl.
    + rewrite bool_decide_true by (right; apply str_in_spec; exact Hin). simpl.
      unfold np_f32_lt, f32_ltb. by destruct (f32_leb _ _).
    + rewrite bool_decide_false; [reflexivity|].
      intros [H|H]; [contradiction|]. apply str_in_spec in H. congruence.
Qed.

(** *** float32 rounding is monotone *)

Lemma pow2_pos (k : Z) : 0 < pow2 k.
Proof. apply Qpower_0_lt. reflexivity. Qed.

Lemma pow2_add (a b : Z) : pow2 (a + b) == pow2 a * pow2 b.
Proof. apply Qpower_plus. discriminate. Qed.

Lemma pow2_le (a b : Z) : (a <= b)%Z -> pow2 a <= pow2 b.
Proof. intros H. apply Qpower_le_compat_l; [exact H | discriminate]. Qed.

Lemma rne_int (z : Z) : rne (inject_Z z) = z.
Proof.
  unfold rne. rewrite Qfloor_Z.
  destruct (Qcompare_spec (inject_Z z - inject_Z z) (1#2)) as [E|E|E];
    [lra | reflexivity | lra].
Qed.

Lemma rne_bounds (x : Q) : (Qfloor x <= rne x <= Qfloor x + 1)%Z.
Proof.
  unfold rne. destruct (_ ?= _); [destruct (Z.even _)|..]; lia.
Qed.

Lemma rne_mono (x y : Q) : x <= y -> (rne x <= rne y)%Z.
Proof.
  intros Hxy. pose proof (Qfloor_resp_le _ _ Hxy) as Hf.
  pose proof (rne_bounds x) as Bx. pose proof (rne_bounds y) as By.
  destruct (Z.eq_dec (Qfloor x) (Qfloor y)) as [E|E]; [|lia].
  unfold rne. rewrite <-E.
  set (f := Qfloor x).
  assert (Hfr : x - inject_Z f <= y - inject_Z f) by lra.
  destruct (Qcompare_spec (x - inject_Z f) (1#2)) as [Ex|Ex|Ex];
  destruct (Qcompare_spec (y - inject_Z f) (1#2)) as [Ey|Ey|Ey];
  try (destruct (Z.even f); lia); try lra.
Qed.

Lemma rne_Qeq (x y : Q) : x == y -> rne x = rne y.
Proof. intros E. apply Z.le_antisymm; apply rne_mono; rewrite E; apply Qle_refl. Qed.

Lemma exp_search_spec (x : Q) : forall fuel u,
  (u = -149)%Z \/ pow2 (u + 23) <= x ->
  (-149 <= u)%Z ->
  (u + Z.of_nat fuel = 104)%Z -> x < pow2 128 ->
  let v := exp_search fuel u x in
  x < pow2 (v + 24) /\ ((v = -149)%Z \/ pow2 (v + 23) <= x) /\ (-149 <= v)%Z.
Proof.
  induction fuel as [|fuel IH]; intros u Hu Hlo Hf Hx; simpl.
  - replace (u + 24)%Z with 128%Z by lia. auto.
  - destruct (Qlt_le_dec x (pow2 (u + 24))) as [Hlt|Hle]; [auto|].
    apply IH; [right | lia | lia | exact Hx].
    replace (u + 1 + 23)%Z with (u + 24)%Z by lia. exact Hle.
Qed.

Lemma f32_exp_spec (x : Q) : x < pow2 128 ->
  x < pow2 (f32_exp x + 24) /\ ((f32_exp x = -149)%Z \/ pow2 (f32_exp x + 23) <= x) /\
  (-149 <= f32_exp x)%Z.
Proof. intros Hx. apply exp_search_spec; [left; reflexivity | lia | reflexivity | exact Hx]. Qed.

Lemma f32_exp_mono (x y : Q) : x <= y -> y < pow2 128 -> (f32_exp x <= f32_exp y)%Z.
Proof.
  intros Hxy Hy.
  destruct (f32_exp_spec x ltac:(lra)) as (_ & Hx2 & Hx3).
  destruct (f32_exp_spec y Hy) as (Hy1 & _ & Hy3).
  destruct (Z.le_gt_cases (f32_exp x) (f32_exp y)) as [H|H]; [exact H|].
  destruct Hx2 as [Hx2|Hx2]; [lia|].
  pose proof (pow2_le (f32_exp y + 24) (f32_exp x + 23) ltac:(lia)). lra.
Qed.

Lemma Qdiv_le_mono (x y p : Q) : 0 < p -> x <= y -> x / p <= y / p.
Proof.
  intros Hp Hxy. apply Qmult_le_compat_r; [exact Hxy|].
  apply Qlt_le_weak, Qinv_lt_0_compat, Hp.
Qed.

Lemma inject_Z_le (a b : Z) : (a <= b)%Z -> inject_Z a <= inject_Z b.
Proof. intros H. rewrite <-Zle_Qle. exact H. Qed.

Lemma round_at_mono (u : Z) (x y : Q) : x <= y -> f32_round_at u x <= f32_round_at u y.
Proof.
  intros Hxy. unfold f32_round_at. pose proof (pow2_pos u).
  apply Qmult_le_compat_r; [|lra].
  apply inject_Z_le, rne_mono, Qdiv_le_mono; assumption.
Qed.

Lemma pow2_div (u k : Z) : pow2 (u + k) / pow2 u == pow2 k.
Proof.
  rewrite pow2_add. pose proof (pow2_pos u). field. lra.
Qed.

Lemma pow2_int (k : Z) : (0 <= k)%Z -> pow2 k == inject_Z (2 ^ k).
Proof. intros Hk. unfold pow2. rewrite Zpower_Qpower by exact Hk. reflexivity. Qed.

Lemma round_at_pow2 (u k : Z) : (0 <= k)%Z -> f32_round_at u (pow2 (u + k)) == pow2 (u + k).
Proof.
  intros Hk. unfold f32_round_at.
  assert (E : pow2 (u + k) / pow2 u == inject_Z (2 ^ k)) by (rewrite pow2_div; apply pow2_int, Hk).
  rewrite (rne_Qeq _ _ E), rne_int, <-pow2_int, pow2_add by exact Hk. ring.
Qed.

Lemma round_at_upper (u : Z) (x : Q) : x <= pow2 (u + 24) -> f32_round_at u x <= pow2 (u + 24).
Proof.
  intros Hx. pose proof (round_at_pow2 u 24 ltac:(lia)).
  pose proof (round_at_mono u _ _ Hx). lra.
Qed.

Lemma round_at_lower (u : Z) (x : Q) : pow2 (u + 23) <= x -> pow2 (u + 23) <= f32_round_at u x.
Proof.
  intros Hx. pose proof (round_at_pow2 u 23 ltac:(lia)).
  pose proof (round_at_mono u _ _ Hx). lra.
Qed.

Lemma round_at_nonneg (u : Z) (x : Q) : 0 <= x -> 0 <= f32_round_at u x.
Proof.
  intros Hx. unfold f32_round_at. pose proof (pow2_pos u).
  apply Qmult_le_0_compat; [|lra].
  change 0 with (inject_Z 0). apply inject_Z_le.
  rewrite <-(rne_int 0). apply rne_mono.
  apply Qle_shift_div_l; [exact H|].
  assert (E : inject_Z 0 * pow2 u == 0) by ring. rewrite E. exact Hx.
Qed.

Lemma round_pos_value_mono (x y : Q) : 0 < x -> x <= y -> y < pow2 128 ->
  f32_round_at (f32_exp x) x <= f32_round_at (f32_exp y) y.
Proof.
  intros Hx Hxy Hy.
  pose proof (f32_exp_mono x y Hxy Hy) as Hu.
  destruct (f32_exp_spec x ltac:(lra)) as (Hx1 & _ & Hx3).
  destruct (f32_exp_spec y Hy) as (_ & Hy2 & _).
  destruct (Z.eq_dec (f32_exp x) (f32_exp y)) as [E|E].
  - rewrite E. apply round_at_mono, Hxy.
  - destruct Hy2 as [Hy2|Hy2]; [lia|].
    pose proof (round_at_upper (f32_exp x) x ltac:(lra)).
    pose proof (round_at_lower (f32_exp y) y Hy2).
    pose proof (pow2_le (f32_exp x + 24) (f32_exp y + 23) ltac:(lia)). lra.
Qed.

Lemma f32_leb_refl (a : f32) : f32_leb a a = true.
Proof. destruct a as [q|[]]; simpl; try reflexivity. apply Qle_bool_iff. lra. Qed.

Lemma f32_leb_trans (a b c : f32) : f32_leb a b = true -> f32_leb b c = true -> f32_leb a c = true.
Proof.
  destruct a as [p|[]], b as [q|[]], c as [r|[]]; simpl; try done.
  rewrite !Qle_bool_iff. lra.
Qed.

Lemma f32_leb_neg (a b : f32) : f32_leb (f32_neg b) (f32_neg a) = f32_leb a b.
Proof.
  destruct a as [p|[]], b as [q|[]]; simpl; try done.
  destruct (Qle_bool p q) eqn:E1, (Qle_bool (- q) (- p)) eqn:E2; try reflexivity.
  - apply Qle_bool_iff in E1. exfalso.
    assert (Hp : Qle_bool (- q) (- p) = true) by (apply Qle_bool_iff; lra). congruence.
  - apply Qle_bool_iff in E2. exfalso.
    assert (Hp : Qle_bool p q = true) by (apply Qle_bool_iff; lra). congruence.
Qed.

Lemma round32_pos_mono (x y : Q) : 0 < x -> x <= y ->
  f32_leb (round32_pos x) (round32_pos y) = true.
Proof.
  intros Hx Hxy. unfold round32_pos.
  destruct (Qlt_le_dec y (pow2 128)) as [Hy|Hy];
    [|destruct (Qlt_le_dec x _); [destruct (Qlt_le_dec _ _)|]; reflexivity].
  destruct (Qlt_le_dec x (pow2 128)) as [Hx'|Hx']; [|lra].
  pose proof (round_pos_value_mono x y Hx Hxy Hy).
  destruct (Qlt_le_dec (f32_round_at (f32_exp y) y) (pow2 128)) as [Hv|Hv];
    [|destruct (Qlt_le_dec _ _); reflexivity].
  destruct (Qlt_le_dec (f32_round_at (f32_exp x) x) (pow2 128)) as [Hu|Hu]; [|lra].
  simpl. apply Qle_bool_iff. assumption.
Qed.

Lemma round32_pos_nonneg (x : Q) : 0 < x -> f32_leb (F32 0) (round32_pos x) = true.
Proof.
  intros Hx. unfold round32_pos.
  destruct (Qlt_le_dec x (pow2 128)); [|reflexivity].
  destruct (Qlt_le_dec _ (pow2 128)); [|reflexivity].
  simpl. apply Qle_bool_iff, round_at_nonneg. lra.
Qed.

Lemma round32_pos_neg_nonpos (x : Q) : 0 < x -> f32_leb (f32_neg (round32_pos x)) (F32 0) = true.
Proof.
  intros Hx. unfold round32_pos.
  destruct (Qlt_le_dec x (pow2 128)); [|reflexivity].
  destruct (Qlt_le_dec _ (pow2 128)); [|reflexivity].
  simpl. apply Qle_bool_iff.
  pose proof (round_at_nonneg (f32_exp x) x ltac:(lra)). lra.
Qed.

Lemma Qnum_sign (x : Q) :
  match Qnum x with Z0 => x == 0 | Zpos _ => 0 < x | Zneg _ => x < 0 end.
Proof.
  destruct x as [[|n|n] d]; unfold Qeq, Qlt; simpl; lia.
Qed.

Lemma round32_mono (x y : Q) : x <= y -> f32_leb (round32 x) (round32 y) = true.
Proof.
  intros Hxy. unfold round32.
  pose proof (Qnum_sign x) as Sx. pose proof (Qnum_sign y) as Sy.
  destruct (Qnum x) as [|a|a], (Qnum y) as [|b|b].
  - apply f32_leb_refl.
  - apply round32_pos_nonneg, Sy.
  - lra.
  - lra.
  - apply round32_pos_mono; assumption.
  - lra.
  - apply round32_pos_neg_nonpos. lra.
  - apply (f32_leb_trans _ (F32 0)).
    + apply round32_pos_neg_nonpos. lra.
    + apply round32_pos_nonneg, Sy.
  - rewrite f32_leb_neg. apply round32_pos_mono; lra.
Qed.

Lemma np_f32_lt_le (x y : Q) : y <= x -> np_f32_lt x y = false.
Proof. intros H. unfold np_f32_lt, f32_ltb. by rewrite round32_mono. Qed.

Lemma raw_detections_app (r1 r2 : list YoloResult) :
  raw_detections (r1 ++ r2) = raw_detections r1 ++ raw_detections r2.
Proof. unfold raw_detections. apply flat_map_app. Qed.

Lemma inject_Z_pos (n : Z) : (0 < n)%Z -> 0 < inject_Z n.
Proof. intros H. unfold Qlt. simpl. lia. Qed.

Lemma unit_fraction (a : Q) (n : Z) :
  (0 < n)%Z -> 0 <= a -> a <= inject_Z n -> 0 <= a / inject_Z n <= 1.
Proof.
  intros Hn Ha Han. pose proof (inject_Z_pos n Hn) as Hq. split.
  - apply Qle_shift_div_l; [exact Hq|]. by rewrite Qmult_0_l.
  - apply Qle_shift_div_r; [exact Hq|]. by rewrite Qmult_1_l.
Qed.

Lemma normalize_bbox_in_unit (W H : Z) (b : xyxy) :
  (0 < W)%Z -> (0 < H)%Z ->
  0 <= x1 b -> x1 b <= x2 b -> x2 b <= inject_Z W ->
  0 <= y1 b -> y1 b <= y2 b -> y2 b <= inject_Z H ->
  0 <= bb_x (normalize_bbox b W H) <= 1 /\ 0 <= bb_y (normalize_bbox b W H) <= 1 /\
  0 <= bb_width (normalize_bbox b W H) <= 1 /\ 0 <= bb_height (normalize_bbox b W H) <= 1.
Proof.
  intros HW HH Hx1 Hx12 Hx2 Hy1 Hy12 Hy2. simpl.
  repeat split; apply unit_fraction; try assumption; lra.
Qed.

(* ================================================================== *)
(** * The claims *)

(** C2 (counterexample): the threshold test is not the exact comparison.
    Under [thresholds = {"car": 0.7, "person": 0.3}] a "car" row (class
    id 2) of confidence float32(0.7) = 11744051/2^24, which is below the
    Python float 0.7, is emitted by [filter_detections] (in float32 the two
    are equal) while the contract with the exact comparison drops it. *)
Lemma filter_detections_f32_keeps_below_threshold :
  f32_0_7 < py_0_7 /\
  filter_detections (1#2) [single_result (mkXyxy 10 10 50 40) f32_0_7 2%Z] []
    {["car" := py_0_7; "person" := 5404319552844595 # 18014398509481984]} 100%Z 100%Z
  = [{| class_name := "car"; confidence := f32_0_7;
        bbox := normalize_bbox (mkXyxy 10 10 50 40) 100%Z 100%Z |}] /\
  filter_detections_spec (1#2) [single_result (mkXyxy 10 10 50 40) f32_0_7 2%Z] []
    {["car" := py_0_7; "person" := 5404319552844595 # 18014398509481984]} 100%Z 100%Z
  = [].
Proof. split; [reflexivity | split; vm_compute; reflexivity]. Qed.

(** C2 (amended): [filter_detections] returns, in the invoker's order and
    without re-sorting, exactly the raw detections whose class id is in
    the class map, whose class name is in the allowlist when one is given,
    and whose float32 confidence is not below the effective threshold cast
    to float32 (NumPy's comparison of an [np.float32] with a Python float);
    each one as a [Detection] with the mapped name, the raw confidence and
    the normalised box. *)
Theorem filter_detections_refines_spec CT results classes thresholds w h :
  filter_detections CT results classes thresholds w h
  = filter_detections_spec_f32 CT results classes thresholds w h.
Proof.
  rewrite filter_detections_omap. unfold filter_detections_spec_f32.
  induction (raw_detections results) as [|[[box conf] class_id] raws IH]; [reflexivity|].
  cbn -[filter_one]. rewrite filter_one_spec, IH. reflexivity.
Qed.

(** C5: for positive [W], [H] and corners inside the image, the four
    normalised fields are in [0,1] and [x + width] equals [x2 / W]
    exactly in rational arithmetic. *)
Theorem normalize_bbox_roundtrip (W H : Z) (b : xyxy) :
  (0 < W)%Z -> (0 < H)%Z ->
  0 <= x1 b -> x1 b <= x2 b -> x2 b <= inject_Z W ->
  0 <= y1 b -> y1 b <= y2 b -> y2 b <= inject_Z H ->
  (0 <= bb_x (normalize_bbox b W H) <= 1 /\ 0 <= bb_y (normalize_bbox b W H) <= 1 /\
   0 <= bb_width (normalize_bbox b W H) <= 1 /\ 0 <= bb_height (normalize_bbox b W H) <= 1) /\
  bb_x (normalize_bbox b W H) + bb_width (normalize_bbox b W H) == x2 b / inject_Z W.
Proof.
  intros HW HH Hx1 Hx12 Hx2 Hy1 Hy12 Hy2. split.
  - by apply normalize_bbox_in_unit.
  - simpl. pose proof (inject_Z_pos W HW) as Hq. field.
    intros E. rewrite E in Hq. discriminate.
Qed.

(** The corners of a pixel box lie inside a [w] x [h] image. *)
Definition corners_inside (box : xyxy) (w h : Z) : Prop :=
  0 <= x1 box /\ x1 box <= x2 box /\ x2 box <= inject_Z w /\
  0 <= y1 box /\ y1 box <= y2 box /\ y2 box <= inject_Z h.

Definition bbox_in_unit (b : BoundingBox) : Prop :=
  0 <= bb_x b <= 1 /\ 0 <= bb_y b <= 1 /\ 0 <= bb_width b <= 1 /\ 0 <= bb_height b <= 1.

(** C4: every [Detection] emitted by [filter_detections] for a positive
    image size has its four box fields in [0,1], for every box the model
    may emit: the model's post-processing ([scale_boxes], which calls
    [clip_boxes]) clamps its pixel corners to the image it was given, whose
    [shape] is [img_height, img_width], so they satisfy [corners_inside]. *)
Theorem filter_detections_bbox_in_unit CT results classes thresholds (w h : Z) :
  (0 < w)%Z -> (0 < h)%Z ->
  (forall box conf class_id, (box, conf, class_id) ∈ raw_detections results ->
                             corners_inside box w h) ->
  forall d, d ∈ filter_detections CT results classes thresholds w h -> bbox_in_unit (bbox d).
Proof.
  intros Hw Hh Hraw d Hd.
  rewrite filter_detections_omap in Hd.
  apply list_elem_of_omap in Hd as [[[box conf] class_id] [Hx Hf]].
  rewrite filter_one_spec in Hf.
  destruct (YOLO_TO_VY_CLASSES !! class_id) as [c|]; [|discriminate].
  destruct (_ && _); [|discriminate].
  injection Hf as <-. simpl.
  destruct (Hraw _ _ _ Hx) as (? & ? & ? & ? & ? & ?).
  by apply normalize_bbox_in_unit.
Qed.

Lemma filter_detections_bbox_in_unit_witness :
  bbox_in_unit (normalize_bbox (mkXyxy 10 10 50 60) 100%Z 100%Z).
Proof.
  apply (filter_detections_bbox_in_unit (1#2)
           [single_result (mkXyxy 10 10 50 60) (9#10) 0%Z] [] ∅ 100%Z 100%Z
           ltac:(reflexivity) ltac:(reflexivity)
           ltac:(intros box conf class_id Hx; vm_compute in Hx;
                 apply list_elem_of_singleton in Hx; injection Hx as -> _ _;
                 unfold corners_inside; vm_compute; repeat split; discriminate)
           {| class_name := "person"; confidence := 9#10;
              bbox := normalize_bbox (mkXyxy 10 10 50 60) 100%Z 100%Z |}).
  vm_compute. left.
Defined.

(** C6 (counterexample): a detection is not dropped exactly when its
    confidence is below the threshold.  A ["car"] row of confidence
    float32(0.7), below the Python float 0.7, is emitted under
    [{"car": 0.7}]: NumPy casts 0.7 to float32 and finds the two equal. *)
Lemma filter_detections_f32_threshold_tie :
  f32_0_7 < py_0_7 /\
  forall CT w h box,
    filter_detections CT [single_result box f32_0_7 2%Z] [] {["car" := py_0_7]} w h
    = [{| class_name := "car"; confidence := f32_0_7; bbox := normalize_bbox box w h |}].
Proof. split; [reflexivity|]. intros CT w h box. vm_compute. reflexivity. Qed.

(** C6 (amended): in [filter_detections] the effective threshold of a
    detection is the caller's override for its class name, else the
    configured default, and the detection is dropped exactly when its
    float32 confidence is strictly below that threshold cast to float32
    (NumPy's [np.float32 < float]).  So a detection whose confidence is at
    least the threshold is always emitted, and only one strictly below it
    can be dropped; a ["car"] detection (class id 2) of confidence 0.6 (as
    float32) is emitted under [{"car": 0.5}] and dropped under
    [{"car": 0.7}]. *)
Theorem filter_detections_threshold_rule :
  (forall CT classes thresholds w h box conf class_id c,
     YOLO_TO_VY_CLASSES !! class_id = Some c ->
     (classes = [] \/ c ∈ classes) ->
     (np_f32_lt conf (default CT (thresholds !! c)) = true ->
      filter_detections CT [single_result box conf class_id] classes thresholds w h = []) /\
     (np_f32_lt conf (default CT (thresholds !! c)) = false ->
      filter_detections CT [single_result box conf class_id] classes thresholds w h
      = [{| class_name := c; confidence := conf; bbox := normalize_bbox box w h |}]) /\
     (default CT (thresholds !! c) <= conf ->
      np_f32_lt conf (default CT (thresholds !! c)) = false)) /\
  (forall CT w h box,
     filter_detections CT [single_result box f32_0_6 2%Z] [] {["car" := py_0_5]} w h
     = [{| class_name := "car"; confidence := f32_0_6; bbox := normalize_bbox box w h |}] /\
     filter_detections CT [single_result box f32_0_6 2%Z] [] {["car" := py_0_7]} w h = []).
Proof.
  split.
  - intros CT classes thresholds w h box conf class_id c Hc Hcl.
    rewrite filter_detections_omap. cbn -[filter_one].
    rewrite filter_one_spec, Hc, bool_decide_true by exact Hcl. simpl.
    unfold np_f32_lt, f32_ltb.
    split; [|split]; intros Hthr.
    + apply negb_true_iff in Hthr. by rewrite Hthr.
    + apply negb_false_iff in Hthr. by rewrite Hthr.
    + by rewrite round32_mono.
  - intros CT w h box. split; vm_compute; reflexivity.
Qed.

Lemma filter_detections_threshold_rule_witness :
  filter_detections (1#2) [single_result (mkXyxy 0 0 1 1) (3#10) 2%Z] ["car"] ∅ 4%Z 4%Z = [].
Proof.
  apply (proj1 (proj1 filter_detections_threshold_rule (1#2) ["car"] ∅ 4%Z 4%Z
           (mkXyxy 0 0 1 1) (3#10) 2%Z "car" ltac:(reflexivity)
           ltac:(right; left))).
  vm_compute. reflexivity.
Defined.



(** C10: the /health response is consistent: [status] is ["healthy"]
    exactly when [model_loaded] is true (a model is loaded), ["unhealthy"]
    exactly when it is false, and no other status occurs. *)
Theorem health_check_consistent DEVICE (yolo datetime : Type) (now : datetime)
    (model : option yolo) :
  let r := health_check DEVICE yolo datetime now model in
  (status r = "healthy" <-> model_loaded r = true) /\
  (status r = "unhealthy" <-> model_loaded r = false) /\
  (status r = "healthy" \/ status r = "unhealthy") /\
  (model_loaded r = true <-> is_Some model).
Proof.
  unfold health_check; simpl.
  destruct (bool_decide_reflect (is_Some model)) as [Hm|Hm].
  - repeat split; try done. by left.
  - repeat split; try done. by right.
Qed.

Lemma py_min_fold (xs : list Q) (acc : Q) :
  let r := fold_left (fun acc y => if Qlt_le_dec y acc then y else acc) xs acc in
  (r = acc \/ r ∈ xs) /\ r <= acc /\ (forall y, y ∈ xs -> r <= y).
Proof.
  revert acc. induction xs as [|x xs IH]; intros acc; simpl.
  - split; [by left|]. split; [apply Qle_refl|]. intros y Hy. inversion Hy.
  - destruct (Qlt_le_dec x acc) as [Hlt|Hle].
    + destruct (IH x) as (Hr & Hrx & Hall). split; [|split].
      * right. destruct Hr as [->|Hr]; [left | by right].
      * eapply Qle_trans; [exact Hrx|]. by apply Qlt_le_weak.
      * intros y Hy. apply elem_of_cons in Hy as [->|Hy]; [exact Hrx | by apply Hall].
    + destruct (IH acc) as (Hr & Hra & Hall). split; [|split].
      * destruct Hr as [->|Hr]; [by left | right; by right].
      * exact Hra.
      * intros y Hy. apply elem_of_cons in Hy as [->|Hy];
          [eapply Qle_trans; eassumption | by apply Hall].
Qed.

Lemma py_min_spec (xs : list Q) (m : Q) :
  py_min xs = Some m -> m ∈ xs /\ forall y, y ∈ xs -> m <= y.
Proof.
  destruct xs as [|x xs]; simpl; [discriminate|]. intros [= <-].
  destruct (py_min_fold xs x) as (Hr & Hrx & Hall). split.
  - destruct Hr as [->|Hr]; [left | by right].
  - intros y Hy. apply elem_of_cons in Hy as [->|Hy]; [exact Hrx | by apply Hall].
Qed.

Lemma inference_conf_spec (CT : Q) (thresholds : gmap string Q) :
  (thresholds = ∅ -> inference_conf CT thresholds = CT) /\
  (thresholds <> ∅ ->
   (exists k, thresholds !! k = Some (inference_conf CT thresholds)) /\
   forall k v, thresholds !! k = Some v -> inference_conf CT thresholds <= v).
Proof.
  unfold inference_conf. split.
  - intros ->. by rewrite bool_decide_true.
  - intros Hne. rewrite bool_decide_false by exact Hne.
    destruct (map_to_list thresholds) as [|[k0 v0] l] eqn:Hl.
    { apply map_to_list_empty_iff in Hl. contradiction. }
    destruct (py_min (map snd ((k0, v0) :: l))) as [m|] eqn:Hm; [|discriminate].
    apply py_min_spec in Hm as [Hin Hmin]. simpl default. split.
    + change (m ∈ snd <$> ((k0, v0) :: l)) in Hin.
      apply list_elem_of_fmap in Hin as [[k v] [-> Hkv]].
      exists k. apply elem_of_map_to_list. rewrite Hl. exact Hkv.
    + intros k v Hkv. apply Hmin. change (v ∈ snd <$> ((k0, v0) :: l)).
      apply list_elem_of_fmap. exists (k, v). split; [reflexivity|].
      rewrite <-Hl. by apply elem_of_map_to_list.
Qed.

(** C3: every model invocation made by /detect receives as confidence floor
    the configured default when the request's thresholds mapping is empty,
    and otherwise the minimum of its values: a value of the mapping that
    is below or equal to every value of it. *)
Theorem detect_objects_conf_floor CT DEVICE bytes image b64decode image_to_array
    image_shape yolo run_model elapsed_ms (model : option yolo)
    (request : DetectionRequest) (call : ModelCall image) :
  call ∈ fst (detect_objects CT DEVICE bytes image b64decode image_to_array
                image_shape yolo run_model elapsed_ms model request) ->
  (thresholds request = ∅ -> call_conf call = CT) /\
  (thresholds request <> ∅ ->
   (exists k, thresholds request !! k = Some (call_conf call)) /\
   forall k v, thresholds request !! k = Some v -> call_conf call <= v).
Proof.
  assert (Hconf : call ∈ fst (detect_objects CT DEVICE bytes image b64decode image_to_array
                                image_shape yolo run_model elapsed_ms model request) ->
                  call_conf call = inference_conf CT (thresholds request)).
  { unfold detect_objects. destruct model as [m|]; simpl; [|intros Hc; inversion Hc].
    unfold detect_body.
    destruct (if str_truthy (image_data request) then _ else _) as [img|e]; simpl.
    - destruct (image_shape img) as [hh ww]. simpl.
      intros Hc. apply list_elem_of_singleton in Hc. by subst call.
    - intros Hc. inversion Hc. }
  intros Hc. specialize (Hconf Hc). rewrite Hconf. apply inference_conf_spec.
Qed.

(** A per-class thresholds mapping of a request. *)
Definition car_person_thresholds : gmap string Q := {["car" := 7#10; "person" := 3#10]}.

Lemma detect_objects_conf_floor_witness :
  (exists k, car_person_thresholds !! k = Some (3#10)) /\
  (forall k v, car_person_thresholds !! k = Some v ->
               3#10 <= v).
Proof.
  apply (proj2 (detect_objects_conf_floor (1#2) "cpu" string (Z * Z)
           (fun s => Ok s) (fun _ => Ok (100%Z, 100%Z)) (fun i => i) unit
           (fun _ _ _ _ => Ok []) 0 (Some tt)
           {| image_data := Some "aGVsbG8="; image_url := None; classes := [];
              thresholds := car_person_thresholds; nms_iou := 45#100 |}
           {| call_image := (100%Z, 100%Z); call_conf := 3#10; call_iou := 45#100 |}
           ltac:(vm_compute; left))).
  vm_compute. discriminate.
Defined.

(** C1: with a model loaded, /detect does not answer the three
    malformed-input cases with a client error.  The 400 [HTTPException]s
    raised in the [try] block (no image field, an image URL, image data
    that does not decode) are caught by its [except Exception] clause and
    re-raised as status 500 ["Detection failed: 400: ..."]. *)
Theorem detect_objects_client_errors_become_500 CT DEVICE bytes image b64decode
    image_to_array image_shape yolo run_model elapsed_ms (m : yolo)
    cls thr iou (url : string) :
  snd (detect_objects CT DEVICE bytes image b64decode image_to_array image_shape yolo
         run_model elapsed_ms (Some m)
         {| image_data := None; image_url := None; classes := cls;
            thresholds := thr; nms_iou := iou |})
  = Raise (HTTPException 500 "Detection failed: 400: Either image_data or image_url required") /\
  (url <> "" ->
   snd (detect_objects CT DEVICE bytes image b64decode image_to_array image_shape yolo
          run_model elapsed_ms (Some m)
          {| image_data := None; image_url := Some url; classes := cls;
             thresholds := thr; nms_iou := iou |})
   = Raise (HTTPException 500 "Detection failed: 400: Image URL not supported yet")) /\
  (forall data msg,
     data <> "" -> String.prefix "data:image" data = false ->
     b64decode data = Raise (PyException msg) ->
     snd (detect_objects CT DEVICE bytes image b64decode image_to_array image_shape yolo
            run_model elapsed_ms (Some m)
            {| image_data := Some data; image_url := None; classes := cls;
               thresholds := thr; nms_iou := iou |})
     = Raise (HTTPException 500
                (String.append "Detection failed: 400: Invalid image data: " msg))).
Proof.
  split; [reflexivity|]. split.
  - intros Hurl. unfold detect_objects, detect_body. simpl.
    destruct (String.eqb_spec url "") as [E|_]; [contradiction|]. reflexivity.
  - intros data msg Hd Hp Hb. unfold detect_objects, detect_body. simpl.
    destruct (String.eqb_spec data "") as [E|_]; [contradiction|]. simpl.
    unfold decode_image. rewrite Hp. simpl. rewrite Hb. reflexivity.
Qed.

Lemma detect_objects_client_errors_become_500_witness :
  snd (detect_objects (1#2) "cpu" string (Z * Z)
         (fun s => Raise (PyException "Incorrect padding")) (fun _ => Ok (100%Z, 100%Z))
         (fun i => i) unit (fun _ _ _ _ => Ok []) 0 (Some tt)
         {| image_data := Some "abc"; image_url := None; classes := [];
            thresholds := ∅; nms_iou := 45#100 |})
  = Raise (HTTPException 500 "Detection failed: 400: Invalid image data: Incorrect padding").
Proof.
  apply (proj2 (proj2 (detect_objects_client_errors_become_500 (1#2) "cpu" string (Z * Z)
           (fun s => Raise (PyException "Incorrect padding")) (fun _ => Ok (100%Z, 100%Z))
           (fun i => i) unit (fun _ _ _ _ => Ok []) 0 tt [] ∅ (45#100) "http://x/a.png"))
           "abc" "Incorrect padding");
    [discriminate | reflexivity | reflexivity].
Defined.

(** [all(f(a) for a in s)] over the characters of a string. *)
Fixpoint str_forall (f : ascii -> bool) (s : string) : bool :=
  match s with
  | EmptyString => true
  | String a s' => f a && str_forall f s'
  end.

(** A character of the base64 alphabet: [A-Z], [a-z], [0-9], [+], [/]
    and the padding [=]. *)
Definition is_b64_char (a : ascii) : bool :=
  let n := nat_of_ascii a in
  (Nat.leb 65 n && Nat.leb n 90) || (Nat.leb 97 n && Nat.leb n 122) ||
  (Nat.leb 48 n && Nat.leb n 57) || Nat.eqb n 43 || Nat.eqb n 47 || Nat.eqb n 61.

Definition not_comma (a : ascii) : bool := negb (Ascii.eqb a ","%char).

Lemma str_forall_impl (f g : ascii -> bool) (s : string) :
  (forall a, f a = true -> g a = true) -> str_forall f s = true -> str_forall g s = true.
Proof.
  intros Hfg. induction s as [|a s IH]; simpl; [done|].
  intros [Ha Hs]%andb_prop. rewrite (Hfg a Ha). simpl. by apply IH.
Qed.

Lemma b64_char_not_comma (a : ascii) : is_b64_char a = true -> not_comma a = true.
Proof.
  intros H. unfold not_comma. destruct (Ascii.eqb_spec a ","%char) as [->|_]; [|done].
  vm_compute in H. discriminate.
Qed.

Lemma split_comma_no_comma (s : string) :
  str_forall not_comma s = true -> split_comma s = [s].
Proof.
  induction s as [|a s IH]; simpl; [done|].
  intros [Ha Hs]%andb_prop. unfold not_comma in Ha.
  destruct (Ascii.eqb a ","%char); [discriminate|]. by rewrite IH.
Qed.

Lemma split_comma_app (p s : string) :
  str_forall not_comma p = true ->
  split_comma (String.append p (String ","%char s)) = p :: split_comma s.
Proof.
  induction p as [|a p IH]; simpl.
  - intros _. reflexivity.
  - intros [Ha Hp]%andb_prop. unfold not_comma in Ha.
    destruct (Ascii.eqb a ","%char); [discriminate|]. by rewrite IH.
Qed.

Lemma string_append_assoc (a b c : string) :
  String.append a (String.append b c) = String.append (String.append a b) c.
Proof.
  induction a as [|x a IH]; [reflexivity|].
  change (String x (String.append a (String.append b c))
          = String x (String.append (String.append a b) c)).
  by rewrite IH.
Qed.

Lemma prefix_append (p x : string) : String.prefix p (String.append p x) = true.
Proof.
  induction p as [|a p IH]; [by destruct x|].
  change (String.prefix (String a p) (String a (String.append p x)) = true).
  simpl. destruct (Ascii.ascii_dec a a); [exact IH | contradiction].
Qed.

Lemma prefix_str_forall (f : ascii -> bool) (p s : string) :
  String.prefix p s = true -> str_forall f s = true -> str_forall f p = true.
Proof.
  revert s. induction p as [|a p IH]; intros s; [done|].
  destruct s as [|b s]; simpl; [discriminate|].
  destruct (Ascii.ascii_dec a b) as [->|]; [|discriminate].
  intros Hp [Hb Hs]%andb_prop. rewrite Hb. simpl. by apply (IH s).
Qed.

Lemma b64_not_data_url (s : string) :
  str_forall is_b64_char s = true -> String.prefix "data:image" s = false.
Proof.
  intros Hs. destruct (String.prefix "data:image" s) eqn:Hp; [|reflexivity].
  pose proof (prefix_str_forall is_b64_char _ _ Hp Hs) as H. vm_compute in H.
  discriminate.
Qed.

(** C8: for a payload [s] made of base64 characters (so without a comma)
    and a data-URL header ["data:image" ++ mid] without a comma,
    decoding ["data:image" ++ mid ++ "," ++ s] gives the same result as
    decoding [s] itself: the decoder strips the header up to and including
    the first comma before base64-decoding. *)
Theorem decode_image_data_url bytes image b64decode image_to_array (mid s : string) :
  str_forall is_b64_char s = true ->
  str_forall not_comma mid = true ->
  decode_image bytes image b64decode image_to_array
    (String.append "data:image" (String.append mid (String ","%char s)))
  = decode_image bytes image b64decode image_to_array s.
Proof.
  intros Hs Hmid. unfold decode_image.
  rewrite (b64_not_data_url s Hs).
  assert (Hpre : String.prefix "data:image"
                   (String.append "data:image" (String.append mid (String ","%char s))) = true).
  { apply prefix_append. }
  rewrite Hpre. f_equal.
  rewrite string_append_assoc.
  rewrite (split_comma_app (String.append "data:image" mid) s) by (simpl; exact Hmid).
  rewrite split_comma_no_comma
    by (apply (str_forall_impl is_b64_char); [exact b64_char_not_comma | exact Hs]).
  reflexivity.
Qed.

Lemma decode_image_data_url_witness :
  decode_image string string (fun d => Ok d) (fun b => Ok b) "data:image/png;base64,iVBORw0K"
  = decode_image string string (fun d => Ok d) (fun b => Ok b) "iVBORw0K".
Proof.
  exact (decode_image_data_url string string (fun d => Ok d) (fun b => Ok b)
           "/png;base64" "iVBORw0K" ltac:(vm_compute; reflexivity)
           ltac:(vm_compute; reflexivity)).
Defined.

Lemma fold_append_map {A B} (f : A -> B) (xs : list A) (acc : list B) :
  fold_left (fun acc x => acc ++ [f x]) xs acc = acc ++ map f xs.
Proof.
  revert acc. induction xs as [|x xs IH]; intros acc; simpl.
  - by rewrite app_nil_r.
  - rewrite IH. by rewrite <-app_assoc.
Qed.

(** C9: /batch-validate returns one entry per uploaded file, in upload
    order, each computed from its own file alone; a file whose processing
    raises yields [success = False] with the error's message, a file whose
    processing succeeds yields [success = True], and the other files are
    processed either way. *)
Theorem batch_validate_isolated CT DEVICE bytes image b64decode image_to_array
    image_shape yolo run_model elapsed_ms b64encode UploadFile filename_of read_file
    (model : option yolo) (files : list UploadFile) :
  let item := batch_item CT DEVICE bytes image b64decode image_to_array image_shape yolo
                run_model elapsed_ms b64encode UploadFile filename_of read_file model in
  let process := process_file CT DEVICE bytes image b64decode image_to_array image_shape
                   yolo run_model elapsed_ms b64encode UploadFile read_file model in
  let results := batch_validate CT DEVICE bytes image b64decode image_to_array image_shape
                   yolo run_model elapsed_ms b64encode UploadFile filename_of read_file
                   model files in
  results = map item files /\
  length results = length files /\
  (forall file e, process file = Raise e ->
     item file = BatchError (filename_of file) (exc_str e) /\
     entry_success (item file) = false) /\
  (forall file r, process file = Ok r ->
     item file = BatchOk (filename_of file) (length (detections r)) (processing_time_ms r) /\
     entry_success (item file) = true).
Proof.
  intros item process results.
  assert (Hmap : results = map item files).
  { unfold results, batch_validate. by rewrite fold_append_map. }
  split; [exact Hmap|]. split; [by rewrite Hmap, length_map|]. split.
  - intros file e He. unfold item, batch_item. fold process. by rewrite He.
  - intros file r Hr. unfold item, batch_item. fold process. by rewrite Hr.
Qed.

(** An instance for the batch scenario of the spec: files are (name,
    content) pairs, base64 is the identity, and the content ["corrupt"] is
    not an image. *)
Definition demo_image_to_array (b : string) : outcome (Z * Z) :=
  if String.eqb b "corrupt" then Raise (PyException "cannot identify image file")
  else Ok (10%Z, 10%Z).

Definition demo_files : list (string * string) :=
  [("a.png", "img1"); ("b.png", "corrupt"); ("c.png", "img2")].

Lemma batch_validate_isolated_witness :
  map entry_success
    (batch_validate (1#2) "cpu" string (Z * Z) (fun s => Ok s) demo_image_to_array
       (fun i => i) unit (fun _ _ _ _ => Ok []) 0 (fun b => b) (string * string) fst
       (fun f => Ok (snd f)) (Some tt) demo_files) = [true; false; true] /\
  batch_item (1#2) "cpu" string (Z * Z) (fun s => Ok s) demo_image_to_array
    (fun i => i) unit (fun _ _ _ _ => Ok []) 0 (fun b => b) (string * string) fst
    (fun f => Ok (snd f)) (Some tt) ("b.png", "corrupt")
  = BatchError "b.png" "500: Detection failed: 400: Invalid image data: cannot identify image file".
Proof.
  pose proof (batch_validate_isolated (1#2) "cpu" string (Z * Z) (fun s => Ok s)
                demo_image_to_array (fun i => i) unit (fun _ _ _ _ => Ok []) 0 (fun b => b)
                (string * string) fst (fun f => Ok (snd f)) (Some tt) demo_files)
    as (Hmap & _ & Herr & _).
  split.
  - rewrite Hmap. vm_compute. reflexivity.
  - exact (proj1 (Herr ("b.png", "corrupt")
                    (HTTPException 500 "Detection failed: 400: Invalid image data: cannot identify image file")
                    ltac:(vm_compute; reflexivity))).
Defined.

Lemma normalize_bbox_roundtrip_witness :
  bb_x (normalize_bbox (mkXyxy 10 20 50 60) 100%Z 80%Z)
  + bb_width (normalize_bbox (mkXyxy 10 20 50 60) 100%Z 80%Z) == 50 / inject_Z 100.
Proof.
  exact (proj2 (normalize_bbox_roundtrip 100%Z 80%Z (mkXyxy 10 20 50 60)
                  ltac:(reflexivity) ltac:(reflexivity)
                  ltac:(vm_compute; discriminate) ltac:(vm_compute; discriminate)
                  ltac:(vm_compute; discriminate) ltac:(vm_compute; discriminate)
                  ltac:(vm_compute; discriminate) ltac:(vm_compute; discriminate))).
Defined.

(* ================================================================== *)
(** * Further properties of the service *)

(** The number of rows [zip] produces over the results: [min] of the three
    array lengths for a result with boxes, nothing for [boxes is None]. *)
Definition raw_count (results : list YoloResult) : nat :=
  sum_list_with (fun r => match result_boxes r with
                          | None => 0%nat
                          | Some b => Nat.min (length (boxes_xyxy b))
                                        (Nat.min (length (boxes_conf b)) (length (boxes_cls b)))
                          end) results.

(** The pydantic default of [DetectionRequest.thresholds]. *)
Definition no_thresholds : gmap string Q := ∅.

(** The application class names of [YOLO_TO_VY_CLASSES]. *)
Definition vy_class_names : list string :=
  ["person"; "bicycle"; "car"; "motorcycle"; "truck"; "animal"].

Lemma class_map_names (k : Z) (c : string) :
  YOLO_TO_VY_CLASSES !! k = Some c -> c ∈ vy_class_names.
Proof.
  intros Hk.
  assert (Hall : map_Forall (fun _ c => c ∈ vy_class_names) YOLO_TO_VY_CLASSES)
    by (apply (bool_decide_unpack _); vm_compute; reflexivity).
  exact (Hall k c Hk).
Qed.

Lemma length_zip3 {A B C} (a : list A) (b : list B) (c : list C) :
  length (zip3 a b c) = Nat.min (length a) (Nat.min (length b) (length c)).
Proof.
  revert b c. induction a as [|x a IH]; intros [|y b] [|z c]; simpl; try lia.
  by rewrite IH.
Qed.

Lemma length_omap_le {A B} (f : A -> option B) (l : list A) :
  (length (omap f l) <= length l)%nat.
Proof.
  induction l as [|x l IH]; [simpl; lia|].
  change (omap f (x :: l)) with (match f x with Some y => y :: omap f l | None => omap f l end).
  destruct (f x); simpl; lia.
Qed.

(** What [filter_detections] emits: each element comes from a raw row whose
    class id maps to its class name, which passed the allowlist and the
    threshold, with its confidence and normalised box. *)
Lemma filter_detections_elem CT results classes thresholds w h d :
  d ∈ filter_detections CT results classes thresholds w h ->
  exists box conf class_id,
    (box, conf, class_id) ∈ raw_detections results /\
    YOLO_TO_VY_CLASSES !! class_id = Some (class_name d) /\
    (classes = [] \/ class_name d ∈ classes) /\
    f32_leb (round32 (default CT (thresholds !! class_name d))) (round32 conf) = true /\
    d = {| class_name := class_name d; confidence := conf;
           bbox := normalize_bbox box w h |}.
Proof.
  rewrite filter_detections_omap. intros Hd.
  apply list_elem_of_omap in Hd as [[[box conf] class_id] [Hx Hf]].
  rewrite filter_one_spec in Hf.
  destruct (YOLO_TO_VY_CLASSES !! class_id) as [c|] eqn:Hc; [|discriminate].
  destruct (bool_decide (classes = [] \/ c ∈ classes)) eqn:Hb; [|discriminate].
  destruct (f32_leb _ _) eqn:Hq; [|discriminate].
  injection Hf as <-. simpl.
  apply bool_decide_eq_true in Hb.
  exists box, conf, class_id. done.
Qed.

(** The rows of [filter_detections] with an allowlist are those without
    one, minus some. *)
Lemma filter_one_allowlist CT classes thresholds w h raw d :
  filter_one CT classes thresholds w h raw = Some d ->
  filter_one CT [] thresholds w h raw = Some d.
Proof.
  destruct raw as [[box conf] class_id]. rewrite !filter_one_spec.
  destruct (YOLO_TO_VY_CLASSES !! class_id) as [c|]; [|done].
  rewrite (bool_decide_true ([] = [] \/ c ∈ [])) by (by left).
  destruct (bool_decide (classes = [] \/ c ∈ classes)); simpl; done.
Qed.

(** X1: every [Detection] emitted by [filter_detections] carries one of the
    six application class names, and, when the allowlist is non-empty, a
    name of the allowlist. *)
Theorem filter_detections_class_names CT results classes thresholds w h d :
  d ∈ filter_detections CT results classes thresholds w h ->
  class_name d ∈ vy_class_names /\ (classes <> [] -> class_name d ∈ classes).
Proof.
  intros Hd. destruct (filter_detections_elem _ _ _ _ _ _ _ Hd)
    as (box & conf & class_id & _ & Hc & Hcl & _ & _).
  split; [exact (class_map_names _ _ Hc)|].
  intros Hne. destruct Hcl as [Hnil|Hin]; [contradiction | exact Hin].
Qed.

Lemma filter_detections_class_names_witness :
  "person" ∈ ["person"].
Proof.
  apply (proj2 (filter_detections_class_names (1#2)
           [single_result (mkXyxy 0 0 1 1) (9#10) 0%Z; single_result (mkXyxy 0 0 1 1) (9#10) 2%Z]
           ["person"] no_thresholds 4%Z 4%Z
           {| class_name := "person"; confidence := 9#10;
              bbox := normalize_bbox (mkXyxy 0 0 1 1) 4%Z 4%Z |}
           ltac:(vm_compute; left))).
  discriminate.
Defined.

(** X3: [filter_detections] distributes over concatenation of the model's
    results: filtering two batches of results one after the other gives the
    two filtered lists, concatenated in order. *)
Theorem filter_detections_app CT (r1 r2 : list YoloResult) classes thresholds w h :
  filter_detections CT (r1 ++ r2) classes thresholds w h
  = filter_detections CT r1 classes thresholds w h
    ++ filter_detections CT r2 classes thresholds w h.
Proof.
  rewrite !filter_detections_omap, raw_detections_app. apply omap_app.
Qed.

(** X4: [filter_detections] emits at most one [Detection] per row that
    [zip] produces: results with [boxes is None] give nothing, and a result
    whose three arrays differ in length gives at most the shortest length. *)
Theorem filter_detections_length CT results classes thresholds w h :
  (length (filter_detections CT results classes thresholds w h) <= raw_count results)%nat.
Proof.
  rewrite filter_detections_omap.
  assert (Hraw : length (raw_detections results) = raw_count results).
  { unfold raw_detections, raw_count. induction results as [|r rs IH]; [done|].
    simpl. rewrite length_app, IH. destruct (result_boxes r); [|done].
    by rewrite length_zip3. }
  rewrite <-Hraw. apply length_omap_le.
Qed.

(** X5: a non-empty allowlist only removes detections: the output with
    [classes] is a sublist (same order) of the output with no allowlist. *)
Theorem filter_detections_allowlist_sublist CT results classes thresholds w h :
  filter_detections CT results classes thresholds w h
  `sublist_of` filter_detections CT results [] thresholds w h.
Proof.
  rewrite !filter_detections_omap. generalize (raw_detections results). intros l.
  induction l as [|x l IH]; simpl; [constructor|].
  destruct (filter_one CT classes thresholds w h x) as [d|] eqn:E.
  - rewrite (filter_one_allowlist _ _ _ _ _ _ _ E). by constructor.
  - destruct (filter_one CT [] thresholds w h x); [by constructor | exact IH].
Qed.

Lemma size_class_map : size YOLO_TO_VY_CLASSES = 10%nat.
Proof. vm_compute. reflexivity. Qed.

Section ServiceFacts.

Variable CT : Q.
Variable DEVICE : string.
Variables bytes image : Type.
Variable b64decode : string -> outcome bytes.
Variable image_to_array : bytes -> outcome image.
Variable image_shape : image -> Z * Z.
Variable yolo : Type.
Variable run_model : yolo -> image -> Q -> Q -> outcome (list YoloResult).
Variable elapsed_ms : Q.
Variable b64encode : bytes -> string.
Variable UploadFile : Type.
Variable filename_of : UploadFile -> string.
Variable read_file : UploadFile -> outcome bytes.

Local Abbreviation detect :=
  (detect_objects CT DEVICE bytes image b64decode image_to_array image_shape yolo
     run_model elapsed_ms).
Local Abbreviation decode := (decode_image bytes image b64decode image_to_array).

(** X6: with no model loaded, /detect raises 503 ["Model not loaded"]
    without calling any model, and /batch-validate still answers every
    file, in order, with [success = False]: the read error when the file
    cannot be read, ["503: Model not loaded"] otherwise. *)
Theorem no_model_detect_and_batch (request : DetectionRequest) (files : list UploadFile) :
  detect None request = ([], Raise (HTTPException 503 "Model not loaded")) /\
  batch_validate CT DEVICE bytes image b64decode image_to_array image_shape yolo run_model
    elapsed_ms b64encode UploadFile filename_of read_file None files
  = map (fun f => BatchError (filename_of f)
                    (match read_file f with
                     | Raise e => exc_str e
                     | Ok _ => "503: Model not loaded"
                     end)) files.
Proof.
  split; [reflexivity|].
  unfold batch_validate. rewrite fold_append_map. simpl.
  apply map_ext. intros f. unfold batch_item, process_file.
  destruct (read_file f); reflexivity.
Qed.

(** X7: a request whose [image_data] is absent or the empty string makes
    no model call; it fails with status 500 wrapping the 400 for an image
    URL (["Image URL not supported yet"]) or for no image at all. *)
Theorem detect_without_image_data (m : yolo) (request : DetectionRequest) :
  str_truthy (image_data request) = false ->
  detect (Some m) request
  = ([], Raise (HTTPException 500
                  (String.append "Detection failed: 400: "
                     (if str_truthy (image_url request)
                      then "Image URL not supported yet"
                      else "Either image_data or image_url required")))).
Proof.
  intros Hd. unfold detect_objects, detect_body. rewrite Hd.
  destruct (str_truthy (image_url request)); reflexivity.
Qed.

(** X8: when the image decodes and the model runs, /detect makes exactly
    one model call, with the decoded array, the confidence floor and the
    request's IoU, and answers with [filter_detections] of the model's
    results at the image's width and height, [image_size = (width,
    height)] (the array's shape is (height, width)) and [num_classes] the
    10 class ids of the class map. *)
Theorem detect_success (m : yolo) (request : DetectionRequest) (data : string)
    (img : image) (hh ww : Z) (results : list YoloResult) :
  image_data request = Some data -> data <> "" ->
  decode data = Ok img -> image_shape img = (hh, ww) ->
  run_model m img (inference_conf CT (thresholds request)) (nms_iou request) = Ok results ->
  detect (Some m) request
  = ([{| call_image := img; call_conf := inference_conf CT (thresholds request);
         call_iou := nms_iou request |}],
     Ok {| detections := filter_detections CT results (classes request)
                           (thresholds request) ww hh;
           processing_time_ms := elapsed_ms;
           image_size := (ww, hh);
           model_info := {| model_name := "YOLOv8"; info_device := DEVICE;
                            num_classes := 10 |} |}).
Proof.
  intros Hd Hne Hdec Hshape Hrun. unfold detect_objects, detect_body.
  rewrite Hd. simpl. destruct (String.eqb_spec data "") as [E|_]; [contradiction|]. simpl.
  rewrite Hdec, Hshape. simpl. rewrite Hrun. simpl. by rewrite size_class_map.
Qed.

(** X9: when the image decodes but the model call raises [e], /detect
    records the one call and fails with status 500
    ["Detection failed: " + str(e)]. *)
Theorem detect_model_error (m : yolo) (request : DetectionRequest) (data : string)
    (img : image) (hh ww : Z) (e : exc) :
  image_data request = Some data -> data <> "" ->
  decode data = Ok img -> image_shape img = (hh, ww) ->
  run_model m img (inference_conf CT (thresholds request)) (nms_iou request) = Raise e ->
  detect (Some m) request
  = ([{| call_image := img; call_conf := inference_conf CT (thresholds request);
         call_iou := nms_iou request |}],
     Raise (HTTPException 500 (String.append "Detection failed: " (exc_str e)))).
Proof.
  intros Hd Hne Hdec Hshape Hrun. unfold detect_objects, detect_body.
  rewrite Hd. simpl. destruct (String.eqb_spec data "") as [E|_]; [contradiction|]. simpl.
  rewrite Hdec, Hshape. simpl. by rewrite Hrun.
Qed.

(** X11: [decode_image] either raises [HTTPException] 400 whose detail is
    ["Invalid image data: "] followed by the cause, or returns the array
    of the bytes that [b64decode] gives for the payload: the text after
    the first comma (up to the next one) for a ["data:image"] string, the
    whole string otherwise. *)
Theorem decode_image_outcomes (data : string) :
  (forall e, decode data = Raise e ->
     exists cause, e = HTTPException 400 (String.append "Invalid image data: " cause)) /\
  (forall img, decode data = Ok img ->
     exists payload bs,
       (if String.prefix "data:image" data
        then split_comma data !! 1%nat = Some payload else payload = data) /\
       b64decode payload = Ok bs /\ image_to_array bs = Ok img).
Proof.
  unfold decode_image. split.
  - intros e. destruct (obind _ _); simpl; [discriminate|].
    intros [= <-]. eexists. reflexivity.
  - intros img.
    destruct (String.prefix "data:image" data) eqn:Hp.
    + unfold index1. destruct (split_comma data !! 1%nat) as [payload|] eqn:Hs;
        simpl; [|discriminate].
      destruct (b64decode payload) as [bs|] eqn:Hb; simpl; [|discriminate].
      destruct (image_to_array bs) eqn:Hi; simpl; [|discriminate].
      intros [= ->]. exists payload, bs. done.
    + simpl. destruct (b64decode data) as [bs|] eqn:Hb; simpl; [|discriminate].
      destruct (image_to_array bs) eqn:Hi; simpl; [|discriminate].
      intros [= ->]. exists data, bs. done.
Qed.

(** X12: a ["data:image"] string with no comma fails with 400
    ["Invalid image data: list index out of range"] (the [IndexError] of
    [split(",")[1]]), before any base64 decoding. *)
Theorem decode_image_data_url_without_comma (data : string) :
  String.prefix "data:image" data = true -> str_forall not_comma data = true ->
  decode data = Raise (HTTPException 400 "Invalid image data: list index out of range").
Proof.
  intros Hp Hc. unfold decode_image. rewrite Hp, split_comma_no_comma by exact Hc.
  reflexivity.
Qed.

(** X13: in a data URL whose payload is followed by another comma, the
    decoder keeps only the text between the first and the second comma:
    everything after the second comma is dropped. *)
Theorem decode_image_ignores_after_second_comma (mid s t : string) :
  str_forall is_b64_char s = true -> str_forall not_comma mid = true ->
  decode (String.append "data:image"
            (String.append mid (String ","%char (String.append s (String ","%char t)))))
  = decode s.
Proof.
  intros Hs Hmid. unfold decode_image.
  rewrite (b64_not_data_url s Hs), prefix_append, string_append_assoc.
  rewrite (split_comma_app (String.append "data:image" mid)) by (simpl; exact Hmid).
  rewrite split_comma_app
    by (apply (str_forall_impl is_b64_char); [exact b64_char_not_comma | exact Hs]).
  reflexivity.
Qed.

End ServiceFacts.

(** X14: [load_model] assigns the global [model] before moving it to the
    device.  If [YOLO(weights)] raises, the global is left as it was and
    the exception propagates; if it returns [m], the global becomes
    [Some m] even when [model.to(DEVICE)] then raises, so that /health
    reports the model loaded exactly when [YOLO(weights)] succeeded. *)
Theorem load_model_effects (yolo : Type) (yolo_open : string -> outcome yolo)
    (to_device : yolo -> string -> outcome unit) (W D : string) (model : option yolo)
    (datetime : Type) (now : datetime) :
  (forall e, yolo_open W = Raise e ->
     load_model yolo yolo_open to_device W D model = (model, Raise e)) /\
  (forall m, yolo_open W = Ok m ->
     fst (load_model yolo yolo_open to_device W D model) = Some m /\
     (snd (load_model yolo yolo_open to_device W D model) = Ok tt <->
      exists u, to_device m D = Ok u)) /\
  (model_loaded (health_check D yolo datetime now
                   (fst (load_model yolo yolo_open to_device W D None))) = true <->
   exists m, yolo_open W = Ok m).
Proof.
  unfold load_model. split; [|split].
  - intros e He. by rewrite He.
  - intros m Hm. rewrite Hm. simpl. split; [reflexivity|].
    destruct (to_device m D) as [u|e]; split.
    + intros _. by exists u.
    + done.
    + discriminate.
    + intros [u Hu]. discriminate.
  - unfold health_check. simpl. destruct (yolo_open W) as [m|e]; simpl.
    + split; [intros _; by exists m | done].
    + split; [done|]. intros [m Hm]. discriminate.
Qed.

Lemma load_model_effects_witness :
  fst (load_model unit (fun _ => Ok tt) (fun _ _ => Raise (PyException "no CUDA device"))
         "./weights/yolov8n.pt" "cuda" None) = Some tt.
Proof.
  exact (proj1 (proj1 (proj2 (load_model_effects unit (fun _ => Ok tt)
           (fun _ _ => Raise (PyException "no CUDA device")) "./weights/yolov8n.pt" "cuda"
           None unit tt)) tt eq_refl)).
Defined.

(** A concrete instance of the handler: the model returns one "person"
    row of confidence 0.9, and only when asked for a floor of at most 0.9. *)
Definition demo_run_model (_ : unit) (_ : Z * Z) (c : Q) (_ : Q) : outcome (list YoloResult) :=
  if Qle_bool c (9#10) then Ok [single_result (mkXyxy 10 10 50 40) (9#10) 0%Z] else Ok [].

Definition demo_array (_ : string) : outcome (Z * Z) := Ok (80%Z, 100%Z).

Definition demo_request : DetectionRequest :=
  {| image_data := Some "QUJD"; image_url := None; classes := [];
     thresholds := car_person_thresholds; nms_iou := 45#100 |}.

Lemma detect_without_image_data_witness :
  detect_objects (1#2) "cpu" string (Z * Z) (fun s => Ok s) demo_array (fun i => i) unit
    demo_run_model 0 (Some tt)
    {| image_data := Some ""; image_url := None; classes := [];
       thresholds := no_thresholds; nms_iou := 45#100 |}
  = ([], Raise (HTTPException 500
                  "Detection failed: 400: Either image_data or image_url required")).
Proof.
  exact (detect_without_image_data (1#2) "cpu" string (Z * Z) (fun s => Ok s) demo_array
           (fun i => i) unit demo_run_model 0 tt
           {| image_data := Some ""; image_url := None; classes := [];
              thresholds := no_thresholds; nms_iou := 45#100 |} eq_refl).
Defined.

Lemma detect_success_witness :
  snd (detect_objects (1#2) "cpu" string (Z * Z) (fun s => Ok s) demo_array (fun i => i)
         unit demo_run_model 0 (Some tt) demo_request)
  = Ok {| detections := filter_detections (1#2)
                          [single_result (mkXyxy 10 10 50 40) (9#10) 0%Z] []
                          car_person_thresholds 100%Z 80%Z;
          processing_time_ms := 0; image_size := (100%Z, 80%Z);
          model_info := {| model_name := "YOLOv8"; info_device := "cpu"; num_classes := 10 |} |}.
Proof.
  rewrite (detect_success (1#2) "cpu" string (Z * Z) (fun s => Ok s) demo_array (fun i => i)
             unit demo_run_model 0 tt demo_request "QUJD" (80%Z, 100%Z) 80%Z 100%Z
             [single_result (mkXyxy 10 10 50 40) (9#10) 0%Z]
             eq_refl ltac:(discriminate) eq_refl eq_refl ltac:(vm_compute; reflexivity)).
  reflexivity.
Defined.

Lemma detect_model_error_witness :
  snd (detect_objects (1#2) "cpu" string (Z * Z) (fun s => Ok s) demo_array (fun i => i)
         unit (fun _ _ _ _ => Raise (PyException "CUDA out of memory")) 0 (Some tt) demo_request)
  = Raise (HTTPException 500 "Detection failed: CUDA out of memory").
Proof.
  rewrite (detect_model_error (1#2) "cpu" string (Z * Z) (fun s => Ok s) demo_array
             (fun i => i) unit (fun _ _ _ _ => Raise (PyException "CUDA out of memory")) 0 tt
             demo_request "QUJD" (80%Z, 100%Z) 80%Z 100%Z (PyException "CUDA out of memory")
             eq_refl ltac:(discriminate) eq_refl eq_refl eq_refl).
  reflexivity.
Defined.

Lemma decode_image_outcomes_witness :
  exists payload bs,
    (if String.prefix "data:image" "data:image/png;base64,QUJD"
     then split_comma "data:image/png;base64,QUJD" !! 1%nat = Some payload
     else payload = "data:image/png;base64,QUJD") /\
    (fun s : string => @Ok string s) payload = Ok bs /\
    (fun b : string => @Ok string b) bs = Ok "QUJD".
Proof.
  exact (proj2 (decode_image_outcomes string string (fun s => Ok s) (fun b => Ok b)
                  "data:image/png;base64,QUJD") "QUJD" ltac:(vm_compute; reflexivity)).
Defined.

Lemma decode_image_data_url_without_comma_witness :
  decode_image string string (fun s => Ok s) (fun b => Ok b) "data:image/png"
  = Raise (HTTPException 400 "Invalid image data: list index out of range").
Proof.
  exact (decode_image_data_url_without_comma string string (fun s => Ok s) (fun b => Ok b)
           "data:image/png" eq_refl ltac:(vm_compute; reflexivity)).
Defined.

Lemma decode_image_ignores_after_second_comma_witness :
  decode_image string string (fun s => Ok s) (fun b => Ok b) "data:image/png;base64,QUJD,extra"
  = decode_image string string (fun s => Ok s) (fun b => Ok b) "QUJD".
Proof.
  exact (decode_image_ignores_after_second_comma string string (fun s => Ok s) (fun b => Ok b)
           "/png;base64" "QUJD" "extra" ltac:(vm_compute; reflexivity)
           ltac:(vm_compute; reflexivity)).
Defined.
